(** * HectaScope: JESD204B bring-up of the AXAU15 / ADC08DJ5200RF target

    A shallow embedding of [axau15_adc08dj5200rf.py]: the FMC pad table, the
    elaboration performed by [BaseSoC.__init__] (lane tables, GTH4 PHY
    creation, the init-done barrier driving the reset of the [jesd] clock
    domain, the lane reordering handed to the JESD204B RX core, the link
    status expression), the analyzer probe of [add_jesd_rx_probe] and the
    command-line driver [main].

    Python values are modelled as they are used: integers as [Z], lists as
    [list], exceptions as the left injection of a sum.  Migen expressions,
    which the script builds as objects, are a small syntax tree evaluated
    under a valuation of the hardware signals. *)

From Stdlib Require Import ZArith List Bool Ascii String Lia Permutation.
Import ListNotations.
Open Scope Z_scope.

(** ** Python fragments used by the script *)

Module Py.

Inductive exn : Type :=
| AssertionError
| UnboundLocalError
| IndexError
| TypeError
| ConstraintError.

Definition result (A : Type) : Type := (exn + A)%type.

Definition ret {A} (a : A) : result A := inr a.
Definition raise {A} (e : exn) : result A := inl e.

Definition bind {A B} (c : result A) (k : A -> result B) : result B :=
  match c with
  | inl e => inl e
  | inr a => k a
  end.

(** [assert c] *)
Definition assert (c : bool) : result unit :=
  if c then ret tt else raise AssertionError.

(** Reading a local variable that no executed branch has bound. *)
Definition local {A} (v : option A) : result A :=
  match v with
  | Some a => ret a
  | None => raise UnboundLocalError
  end.

(** [x in l] for a list of integers. *)
Definition contains (x : Z) (l : list Z) : bool :=
  existsb (Z.eqb x) l.

(** [range(n)]: empty when [n <= 0]. *)
Definition range (n : Z) : list Z :=
  map Z.of_nat (seq 0 (Z.to_nat n)).

Definition len {A} (l : list A) : Z := Z.of_nat (List.length l).

(** [l[i]]: negative indices count from the end, anything else out of
    range raises [IndexError]. *)
Definition getitem {A} (l : list A) (i : Z) : result A :=
  let j := if i <? 0 then i + len l else i in
  if (0 <=? j) && (j <? len l) then
    match nth_error l (Z.to_nat j) with
    | Some a => ret a
    | None => raise IndexError
    end
  else raise IndexError.

(** [[f(x) for x in l]] and the body of a [for] loop that appends one
    element per iteration: evaluated left to right, the first exception
    aborts. *)
Fixpoint comprehension {A B} (f : A -> result B) (l : list A)
  : result (list B) :=
  match l with
  | [] => ret []
  | x :: xs =>
      bind (f x) (fun y =>
      bind (comprehension f xs) (fun ys => ret (y :: ys)))
  end.

(** [functools.reduce(f, l)] without initial value: left fold seeded with
    the first element, [TypeError] on the empty list. *)
Definition reduce {A} (f : A -> A -> A) (l : list A) : result A :=
  match l with
  | [] => raise TypeError
  | x :: xs => ret (fold_left f xs x)
  end.

End Py.

Notation "x <- c ;; k" := (Py.bind c (fun x => k))
  (at level 61, c at next level, right associativity).

(** ** Migen expressions over the signals the script combines *)

Module Migen.

(** The 1-bit signals read by the script.  A PHY owns its two init-done
    signals; they are identified by the loop index that created the PHY. *)
Inductive signal : Type :=
| tx_init_done (phy : Z)
| rx_init_done (phy : Z)
| rx_core_enable
| rx_core_jsync.

Inductive expr : Type :=
| Sig (s : signal)
| And (a b : expr)      (* a & b *)
| Not (a : expr).       (* ~a    *)

Definition valuation : Type := signal -> bool.

Fixpoint eval (v : valuation) (e : expr) : bool :=
  match e with
  | Sig s => v s
  | And a b => eval v a && eval v b
  | Not a => negb (eval v a)
  end.

Inductive clock_domain : Type := cd_sys | cd_idelay | cd_jesd.

(** [AsyncResetSynchronizer(cd, async_reset)] as instantiated by the script:
    the clock domain whose reset it drives and the reset request. *)
Record AsyncResetSynchronizer : Type := mkAsyncResetSynchronizer {
  ars_cd : clock_domain;
  ars_async_reset : expr
}.

End Migen.

Import Migen.

(** ** ADC08DJ5200RF FMC IOs *)

Inductive pads : Type :=
| Diff (p n : string)                      (* Subsignal("p", ...), Subsignal("n", ...) *)
| Single (pin : string)                    (* Pins(...) *)
| Group (subsignals : list (string * string)).

Definition adc08dj5200rf_fms_ios : list (string * Z * pads) :=
  [ (* GTH Reference Clk (156.25 MHz). *)
    ("adc08dj5200rf_refclk", 0, Diff "HPC:GBTCLK0_M2C_P" "HPC:GBTCLK0_M2C_N");
    (* GTH RX Lanes. *)
    ("adc08dj5200rf_jesd_rx", 0, Diff "HPC:DP0_M2C_P" "HPC:DP0_M2C_N");
    ("adc08dj5200rf_jesd_rx", 1, Diff "HPC:DP1_M2C_P" "HPC:DP1_M2C_N");
    ("adc08dj5200rf_jesd_rx", 2, Diff "HPC:DP2_M2C_P" "HPC:DP2_M2C_N");
    ("adc08dj5200rf_jesd_rx", 3, Diff "HPC:DP3_M2C_P" "HPC:DP3_M2C_N");
    ("adc08dj5200rf_jesd_rx", 4, Diff "HPC:DP4_M2C_P" "HPC:DP4_M2C_N");
    ("adc08dj5200rf_jesd_rx", 5, Diff "HPC:DP5_M2C_P" "HPC:DP5_M2C_N");
    ("adc08dj5200rf_jesd_rx", 6, Diff "HPC:DP6_M2C_P" "HPC:DP6_M2C_N");
    ("adc08dj5200rf_jesd_rx", 7, Diff "HPC:DP7_M2C_P" "HPC:DP7_M2C_N");
    (* GTH TX Lanes. *)
    ("adc08dj5200rf_jesd_tx", 0, Diff "HPC:DP0_C2M_P" "HPC:DP0_C2M_N");
    ("adc08dj5200rf_jesd_tx", 1, Diff "HPC:DP1_C2M_P" "HPC:DP1_C2M_N");
    ("adc08dj5200rf_jesd_tx", 2, Diff "HPC:DP2_C2M_P" "HPC:DP2_C2M_N");
    ("adc08dj5200rf_jesd_tx", 3, Diff "HPC:DP3_C2M_P" "HPC:DP3_C2M_N");
    ("adc08dj5200rf_jesd_tx", 4, Diff "HPC:DP4_C2M_P" "HPC:DP4_C2M_N");
    ("adc08dj5200rf_jesd_tx", 5, Diff "HPC:DP5_C2M_P" "HPC:DP5_C2M_N");
    ("adc08dj5200rf_jesd_tx", 6, Diff "HPC:DP6_C2M_P" "HPC:DP6_C2M_N");
    ("adc08dj5200rf_jesd_tx", 7, Diff "HPC:DP7_C2M_P" "HPC:DP7_C2M_N");
    (* Jsync. *)
    ("adc08dj5200rf_sync", 0, Single "HPC:LA28_P");
    (* SysRef. *)
    ("adc08dj5200rf_sysref", 0, Diff "HPC:LA03_P" "HPC:LA03_N");
    (* SPI. *)
    ("adc08dj5200rf_spi", 0,
       Group [ ("cs_n", "HPC:LA04_N FMC1_HPC:LA05_P"); ("miso", "HPC:LA04_P");
               ("mosi", "HPC:LA03_N"); ("clk", "HPC:LA03_P");
               ("spi_en", "HPC:LA05_N") ]) ]%string.

(** [platform.request(name, number)] for a resource of the extension above:
    the first entry with that name and number, [ConstraintError] when there
    is none.  It stands for the first request of a resource; the script
    requests each one once.  The board's own resources ([clk200], [eth],
    [user_led], ...), requested outside the JESD section, are not part of
    it. *)
Fixpoint request_in (ios : list (string * Z * pads)) (name : string) (number : Z)
  : Py.result pads :=
  match ios with
  | [] => Py.raise Py.ConstraintError
  | (nm, k, io) :: rest =>
      if String.eqb nm name && (k =? number) then Py.ret io
      else request_in rest name number
  end.

Definition request : string -> Z -> Py.result pads :=
  request_in adc08dj5200rf_fms_ios.

(** ** The cores the script instantiates, as the parameters it gives them *)

Module GTH4.
(** One [GTH4(jesd_pll, tx_pads, rx_pads, sys_clk_freq, ...)] transceiver,
    with the attribute [n] the script sets on it and the two init-done
    signals it exposes ([tx_init.done], [rx_init.done]).  [controls] is
    [None] on a fresh PHY and [Some auto_enable] once
    [add_controls(auto_enable)] has been called on it. *)
Record t : Type := mk {
  tx_pads : pads;
  rx_pads : pads;
  sys_clk_freq : Z;
  data_width : Z;
  clock_aligner : bool;
  tx_buffer_enable : bool;
  rx_buffer_enable : bool;
  tx_polarity : Z;
  rx_polarity : Z;
  n : Z;
  tx_init_done : expr;
  rx_init_done : expr;
  controls : option bool
}.

(** [phy.add_controls(auto_enable)] *)
Definition add_controls (auto_enable : bool) (phy : t) : t := {|
  tx_pads := tx_pads phy;
  rx_pads := rx_pads phy;
  sys_clk_freq := sys_clk_freq phy;
  data_width := data_width phy;
  clock_aligner := clock_aligner phy;
  tx_buffer_enable := tx_buffer_enable phy;
  rx_buffer_enable := rx_buffer_enable phy;
  tx_polarity := tx_polarity phy;
  rx_polarity := rx_polarity phy;
  n := n phy;
  tx_init_done := tx_init_done phy;
  rx_init_done := rx_init_done phy;
  controls := Some auto_enable
|}.




End GTH4.

Record JESD204BPhysicalSettings : Type := mkPhysicalSettings {
  ps_l : Z; ps_m : Z; ps_n : Z; ps_np : Z
}.

Record JESD204BTransportSettings : Type := mkTransportSettings {
  ts_f : Z; ts_s : Z; ts_k : Z; ts_cs : Z
}.

Record JESD204BSettings : Type := mkSettings {
  phy_settings : JESD204BPhysicalSettings;
  transport_settings : JESD204BTransportSettings;
  did : Z;
  bid : Z;
  framing : bool;
  scrambling : bool
}.

Module LiteJESD204BCoreRX.
(** [LiteJESD204BCoreRX(phys, jesd_settings, converter_data_width,
    scrambling, stpl_random)]; position [k] of [phys] is the core's
    lane [k].  [enable] and [jsync] are the two outputs the script reads. *)
Record t : Type := mk {
  phys : list GTH4.t;
  jesd_settings : JESD204BSettings;
  converter_data_width : Z;
  scrambling : bool;
  stpl_random : bool
}.
Definition enable (_ : t) : expr := Sig rx_core_enable.
Definition jsync (_ : t) : expr := Sig rx_core_jsync.
End LiteJESD204BCoreRX.

(** ** BaseSoC *)

Module BaseSoC.

(** The keyword arguments of [BaseSoC.__init__].  The clock frequency is
    in Hz; the command line parses it as a float, of which only whole
    values are modelled. *)
Record kwargs : Type := mkKwargs {
  sys_clk_freq : Z;
  with_led_chaser : bool;
  with_pcie : bool;
  jesd_lanes : Z;
  jesd_framing : bool;
  jesd_scrambling : bool;
  jesd_stpl_random : bool
}.

(** The defaults of the signature. *)
Definition defaults : kwargs := {|
  sys_clk_freq := 125000000;       (* int(125e6) *)
  with_led_chaser := true;
  with_pcie := false;
  jesd_lanes := 4;
  jesd_framing := true;
  jesd_scrambling := true;
  jesd_stpl_random := false
|}.

(** The locals bound under [if jesd_lanes == 4:] and [if jesd_lanes == 8:];
    [None] is a local that neither branch has bound. *)
Definition adc08dj_phy_rx_order (jesd_lanes : Z) : option (list Z) :=
  let v := None in
  let v := if jesd_lanes =? 4 then Some [3; 0; 2; 1] else v in
  let v := if jesd_lanes =? 8 then Some [3; 0; 2; 1; 7; 4; 6; 5] else v in
  v.

Definition adc08dj_phy_rx_polarity (jesd_lanes : Z) : option (list Z) :=
  let v := None in
  let v := if jesd_lanes =? 4 then Some [0; 0; 0; 0] else v in
  let v := if jesd_lanes =? 8 then Some [0; 0; 0; 0; 1; 1; 1; 1] else v in
  v.

Definition ps_rx (jesd_lanes : Z) : option JESD204BPhysicalSettings :=
  let v := None in
  let v := if jesd_lanes =? 4 then Some (mkPhysicalSettings 4 4 8 8) else v in
  let v := if jesd_lanes =? 8 then Some (mkPhysicalSettings 8 8 8 8) else v in
  v.

(** The object after [__init__]: the JESD204B part of the design.  The
    Ethernet, PCIe, LED and clocking instances take no part in the lane
    bring-up and are left out. *)
Record t : Type := mk {
  jesd_phys : list GTH4.t;
  cd_jesd_reset : AsyncResetSynchronizer;
  jesd_rx_core : LiteJESD204BCoreRX.t;
  jesd_link_status : expr
}.

(** One iteration of [for i in range(jesd_lanes)]: the PHY appended to
    [jesd_phys]. *)
Definition jesd_phy (kw : kwargs) (i : Z) : Py.result GTH4.t :=
  jesd_tx_pads <- request "adc08dj5200rf_jesd_tx" i ;;
  jesd_rx_pads <- request "adc08dj5200rf_jesd_rx" i ;;
  polarity <- Py.local (adc08dj_phy_rx_polarity (jesd_lanes kw)) ;;
  rx_polarity <- Py.getitem polarity i ;;
  let jesd_phy := {|
    GTH4.tx_pads := jesd_tx_pads;
    GTH4.rx_pads := jesd_rx_pads;
    GTH4.sys_clk_freq := sys_clk_freq kw;
    GTH4.data_width := 40;
    GTH4.clock_aligner := false;
    GTH4.tx_buffer_enable := true;
    GTH4.rx_buffer_enable := true;
    GTH4.tx_polarity := 0;
    GTH4.rx_polarity := rx_polarity;
    GTH4.n := i;
    GTH4.tx_init_done := Sig (tx_init_done i);
    GTH4.rx_init_done := Sig (rx_init_done i);
    GTH4.controls := None
  |} in
  Py.ret (GTH4.add_controls false jesd_phy).

(** [reduce(and_, [phy.tx_init.done for phy in jesd_phys])] and its
    receive-side twin. *)
Definition jesd_phys_tx_init_done (jesd_phys : list GTH4.t) : Py.result expr :=
  Py.reduce And (map GTH4.tx_init_done jesd_phys).

Definition jesd_phys_rx_init_done (jesd_phys : list GTH4.t) : Py.result expr :=
  Py.reduce And (map GTH4.rx_init_done jesd_phys).

(** [[jesd_phys[n] for n in adc08dj_phy_rx_order]] *)
Definition jesd_phys_rx (jesd_phys : list GTH4.t) (order : list Z)
  : Py.result (list GTH4.t) :=
  Py.comprehension (Py.getitem jesd_phys) order.

(** [BaseSoC.__init__] *)
Definition init (kw : kwargs) : Py.result t :=
  _ <- Py.assert (Py.contains (jesd_lanes kw) [4; 8]) ;;
  (* JESD Configuration *)
  ps <- Py.local (ps_rx (jesd_lanes kw)) ;;
  let ts_rx := mkTransportSettings 2 1 32 0 in
  let settings_rx :=
    mkSettings ps ts_rx 0x5a 0x5 (jesd_framing kw) (jesd_scrambling kw) in
  (* JESD Clocking *)
  _ <- request "adc08dj5200rf_refclk" 0 ;;
  _ <- request "adc08dj5200rf_sysref" 0 ;;
  (* JESD PHYs *)
  phys <- Py.comprehension (jesd_phy kw) (Py.range (jesd_lanes kw)) ;;
  tx_done <- jesd_phys_tx_init_done phys ;;
  rx_done <- jesd_phys_rx_init_done phys ;;
  let reset := mkAsyncResetSynchronizer cd_jesd (Not (And tx_done rx_done)) in
  order <- Py.local (adc08dj_phy_rx_order (jesd_lanes kw)) ;;
  phys_rx <- jesd_phys_rx phys order ;;
  (* JESD RX *)
  let core :=
    LiteJESD204BCoreRX.mk phys_rx settings_rx (jesd_lanes kw * 8)
      (jesd_scrambling kw) (jesd_stpl_random kw) in
  _ <- request "adc08dj5200rf_sync" 0 ;;
  (* JESD Link Status *)
  let link_status :=
    And (And (LiteJESD204BCoreRX.enable core) (LiteJESD204BCoreRX.jsync core))
        (And (LiteJESD204BCoreRX.enable core) (LiteJESD204BCoreRX.jsync core)) in
  Py.ret {|
    jesd_phys := phys;
    cd_jesd_reset := reset;
    jesd_rx_core := core;
    jesd_link_status := link_status
  |}.

End BaseSoC.

(** ** Build driver *)

(** The namespace returned by [parser.parse_args()]. *)
Record args : Type := mkArgs {
  args_build : bool;              (* --build        *)
  args_load : bool;               (* --load         *)
  args_sys_clk_freq : Z;          (* --sys-clk-freq *)
  args_driver : bool              (* --driver       *)
}.

(** The keyword arguments [main] gives to [BaseSoC]: only [sys_clk_freq]. *)
Definition main_kwargs (a : args) : BaseSoC.kwargs := {|
  BaseSoC.sys_clk_freq := args_sys_clk_freq a;
  BaseSoC.with_led_chaser := BaseSoC.with_led_chaser BaseSoC.defaults;
  BaseSoC.with_pcie := BaseSoC.with_pcie BaseSoC.defaults;
  BaseSoC.jesd_lanes := BaseSoC.jesd_lanes BaseSoC.defaults;
  BaseSoC.jesd_framing := BaseSoC.jesd_framing BaseSoC.defaults;
  BaseSoC.jesd_scrambling := BaseSoC.jesd_scrambling BaseSoC.defaults;
  BaseSoC.jesd_stpl_random := BaseSoC.jesd_stpl_random BaseSoC.defaults
|}.

(** [main()], up to the construction of the SoC; the probe, the builder and
    the programmer act on the finished object. *)
Definition main (a : args) : Py.result BaseSoC.t :=
  BaseSoC.init (main_kwargs a).

(** ** The barrier and the reset of the jesd clock domain *)

(** The release condition of the [jesd] reset: the complement of the reset
    request the script hands to [AsyncResetSynchronizer]. *)
Definition all_ready (soc : BaseSoC.t) (v : valuation) : bool :=
  negb (eval v (ars_async_reset (BaseSoC.cd_jesd_reset soc))).

(** The barrier in the words of the specification: every lane [i] in
    [0, N) has [tx_done(i) AND rx_done(i)]. *)
Definition spec_all_ready (lane_count : Z) (v : valuation) : bool :=
  forallb (fun i => v (tx_init_done i) && v (rx_init_done i))
          (Py.range lane_count).

Inductive cd_state : Type := HELD_RESET | ACTIVE.

(** Modelled from the spec: the behaviour of [AsyncResetSynchronizer], a
    Migen primitive whose source is not part of the script.  The domain it
    drives has two states; it is held in reset while the reset request is
    asserted and is released when the request is deasserted.  These are the
    only two transitions; the resynchronisation into the target clock is
    taken as one atomic step. *)
Definition AsyncResetSynchronizer_step (s : cd_state) (async_reset : bool)
  : cd_state :=
  match s, async_reset with
  | HELD_RESET, false => ACTIVE
  | ACTIVE, true => HELD_RESET
  | HELD_RESET, true => HELD_RESET
  | ACTIVE, false => ACTIVE
  end.

(** The [jesd] domain of a built SoC, sampled under a valuation of the
    init-done signals, and its run over a sequence of samples. *)
Definition cd_jesd_step (soc : BaseSoC.t) (s : cd_state) (v : valuation)
  : cd_state :=
  AsyncResetSynchronizer_step s
    (eval v (ars_async_reset (BaseSoC.cd_jesd_reset soc))).

Definition cd_jesd_run (soc : BaseSoC.t) (s : cd_state) (vs : list valuation)
  : cd_state :=
  fold_left (cd_jesd_step soc) vs s.

(** ** Lane remapping as a lookup *)

(** A polarity entry of the table, as the inversion it requests. *)
Definition inverted (polarity : Z) : bool := negb (polarity =? 0).

(** The two tables of [BaseSoC.__init__] read together, as the script reads
    its locals. *)
Definition remap (lane_count : Z) : Py.result (list Z * list bool) :=
  order <- Py.local (BaseSoC.adc08dj_phy_rx_order lane_count) ;;
  polarity <- Py.local (BaseSoC.adc08dj_phy_rx_polarity lane_count) ;;
  Py.ret (order, map inverted polarity).

(** ** Link status inputs and sample configurations *)

(** The valuation in which the RX core drives [enable] and [jsync] with the
    two given values. *)
Definition core_outputs (link_enable sync_achieved : bool) : valuation :=
  fun s =>
    match s with
    | rx_core_enable => link_enable
    | rx_core_jsync => sync_achieved
    | _ => false
    end.

(** [BaseSoC(jesd_lanes=8)]: the eight-lane build, other arguments at
    their defaults. *)
Definition eight_lanes : BaseSoC.kwargs := {|
  BaseSoC.sys_clk_freq := BaseSoC.sys_clk_freq BaseSoC.defaults;
  BaseSoC.with_led_chaser := BaseSoC.with_led_chaser BaseSoC.defaults;
  BaseSoC.with_pcie := BaseSoC.with_pcie BaseSoC.defaults;
  BaseSoC.jesd_lanes := 8;
  BaseSoC.jesd_framing := BaseSoC.jesd_framing BaseSoC.defaults;
  BaseSoC.jesd_scrambling := BaseSoC.jesd_scrambling BaseSoC.defaults;
  BaseSoC.jesd_stpl_random := BaseSoC.jesd_stpl_random BaseSoC.defaults
|}.

(** The PHY list of the default build. *)
Definition default_phys : list GTH4.t :=
  match BaseSoC.init BaseSoC.defaults with
  | inr soc => BaseSoC.jesd_phys soc
  | inl _ => []
  end.

(** ** Pins of a requested resource *)

(** [identifiers.split()]: the words of a [Pins("...")] string, which may
    name several pins separated by blanks. *)
Fixpoint split_from (word : string) (s : string) : list string :=
  match s with
  | EmptyString =>
      match word with EmptyString => [] | _ => [word] end
  | String c rest =>
      if Ascii.eqb c " "%char then
        match word with
        | EmptyString => split_from EmptyString rest
        | _ => word :: split_from EmptyString rest
        end
      else split_from (word ++ String c EmptyString) rest
  end.

Definition split : string -> list string := split_from EmptyString.

(** The pins of a resource, in the order the table lists them. *)
Definition pins (io : pads) : list string :=
  match io with
  | Diff p n => split p ++ split n
  | Single pin => split pin
  | Group subsignals => flat_map (fun sub => split (snd sub)) subsignals
  end.

(** ** Analyzer *)

Module Analyzer.

(** The signals [add_jesd_rx_probe] collects; a link of the RX core is
    whatever [jesd_rx_core.links] holds, here a value of type [L]. *)
Inductive probe (L : Type) : Type :=
| jsync                          (* jesd_rx_core.jsync            *)
| jref                           (* jesd_rx_core.jref             *)
| aligner_source (link : L)      (* link.aligner.source           *)
| fsm (link : L)                 (* link.fsm                      *)
| ilas_valid (link : L)          (* link.ilas.valid               *)
| ilas_done (link : L)           (* link.ilas.done                *)
| transport_source.              (* jesd_rx_core.transport.source *)

Arguments jsync {L}.
Arguments jref {L}.
Arguments aligner_source {L} link.
Arguments fsm {L} link.
Arguments ilas_valid {L} link.
Arguments ilas_done {L} link.
Arguments transport_source {L}.

(** [LiteScopeAnalyzer(analyzer_signals, depth, clock_domain, csr_csv,
    register)] as the parameters it is given. *)
Record t (L : Type) : Type := mk {
  signals : list (probe L);
  depth : Z;
  clock_domain : string;
  csr_csv : string;
  register : bool
}.

Arguments mk {L}.
Arguments signals {L}.
Arguments depth {L}.
Arguments clock_domain {L}.
Arguments csr_csv {L}.
Arguments register {L}.

(** The body of [for link in self.jesd_rx_core.links]: four appends. *)
Definition append_link {L} (analyzer_signals : list (probe L)) (link : L)
  : list (probe L) :=
  (((analyzer_signals ++ [aligner_source link]) ++ [fsm link])
     ++ [ilas_valid link]) ++ [ilas_done link].

(** The four signals one link contributes, in the order they are appended. *)
Definition link_signals {L} (link : L) : list (probe L) :=
  [aligner_source link; fsm link; ilas_valid link; ilas_done link].

(** [BaseSoC.add_jesd_rx_probe(depth)] on a core with the given links. *)
Definition add_jesd_rx_probe {L} (links : list L) (depth : Z) : t L :=
  let analyzer_signals := [jsync; jref] in
  let analyzer_signals := fold_left append_link links analyzer_signals in
  let analyzer_signals := analyzer_signals ++ [transport_source] in
  {| signals := analyzer_signals;
     depth := depth;
     clock_domain := "jesd";
     csr_csv := "test/analyzer.csv";
     register := true |}.

(** The default of the [depth] argument, which [main] relies on. *)
Definition default_depth : Z := 512.

End Analyzer.

(** * Properties *)

(** ** Auxiliary facts on the Python fragments *)

Lemma In_range (n i : Z) : In i (Py.range n) <-> 0 <= i < n.
Proof.
  unfold Py.range. rewrite in_map_iff. split.
  - intros [k [<- Hk]]. apply in_seq in Hk. lia.
  - intros Hi. exists (Z.to_nat i). split; [lia|]. apply in_seq. lia.
Qed.

Lemma eval_fold_And (v : valuation) (es : list expr) (e : expr) :
  eval v (fold_left And es e) = eval v e && forallb (eval v) es.
Proof.
  revert e. induction es as [|x xs IH]; intros e; simpl.
  - now rewrite andb_true_r.
  - rewrite IH. simpl. now rewrite andb_assoc.
Qed.

Lemma eval_reduce_And (v : valuation) (es : list expr) (e : expr) :
  Py.reduce And es = inr e -> eval v e = forallb (eval v) es.
Proof.
  destruct es as [|x xs]; simpl; [discriminate|].
  intros [= <-]. apply eval_fold_And.
Qed.

Lemma forallb_andb {A} (f g : A -> bool) (l : list A) :
  forallb f l && forallb g l = forallb (fun x => f x && g x) l.
Proof.
  induction l as [|x xs IH]; simpl; [reflexivity|].
  rewrite <- IH. destruct (f x), (g x), (forallb f xs); reflexivity.
Qed.

Lemma forallb_map_eval {A} (v : valuation) (f : A -> expr) (l : list A) :
  forallb (eval v) (map f l) = forallb (fun x => eval v (f x)) l.
Proof.
  induction l as [|x xs IH]; simpl; [reflexivity|]. now rewrite IH.
Qed.

(** The code's barrier, tx-reduction AND rx-reduction, is the conjunction
    over the PHYs of both init-done signals. *)
Lemma barrier_per_phy (v : valuation) (phys : list GTH4.t) (tx rx : expr) :
  BaseSoC.jesd_phys_tx_init_done phys = inr tx ->
  BaseSoC.jesd_phys_rx_init_done phys = inr rx ->
  eval v (And tx rx) =
  forallb (fun phy => eval v (GTH4.tx_init_done phy)
                      && eval v (GTH4.rx_init_done phy)) phys.
Proof.
  unfold BaseSoC.jesd_phys_tx_init_done, BaseSoC.jesd_phys_rx_init_done.
  intros Htx Hrx. simpl.
  rewrite (eval_reduce_And v _ _ Htx), (eval_reduce_And v _ _ Hrx).
  rewrite !forallb_map_eval. apply forallb_andb.
Qed.

Lemma spec_all_ready_true (n : Z) (v : valuation) :
  spec_all_ready n v = true <->
  forall i, 0 <= i < n -> v (tx_init_done i) = true /\ v (rx_init_done i) = true.
Proof.
  unfold spec_all_ready. rewrite forallb_forall. split.
  - intros H i Hi. apply andb_true_iff, H, In_range, Hi.
  - intros H i Hi. apply andb_true_iff, H, In_range, Hi.
Qed.

Lemma spec_all_ready_false (n : Z) (v : valuation) (i : Z) :
  0 <= i < n ->
  v (tx_init_done i) && v (rx_init_done i) = false ->
  spec_all_ready n v = false.
Proof.
  intros Hi Hd. destruct (spec_all_ready n v) eqn:E; [|reflexivity].
  destruct (proj1 (spec_all_ready_true n v) E i Hi) as [Ht Hr].
  rewrite Ht, Hr in Hd. discriminate.
Qed.

(** Both supported configurations elaborate; the goal is left with the
    object [__init__] builds. *)
Ltac supported kw H :=
  destruct kw as [freq led pcie lanes fr scr stpl];
  cbn [BaseSoC.jesd_lanes] in *;
  destruct H as [<- | [<- | []]].

Ltac built := eexists; split; [vm_compute; reflexivity|].

(** ** The synchronisation barrier *)

(** C1.  For both lane counts the barrier the script builds, the AND of all
    tx init-done signals ANDed with the AND of all rx init-done signals, is
    true exactly when every lane has both signals true; one lane that is not
    done makes it false. *)
Theorem all_ready_iff_every_lane_done (kw : BaseSoC.kwargs) :
  In (BaseSoC.jesd_lanes kw) [4; 8] ->
  exists soc tx rx,
    BaseSoC.init kw = inr soc /\
    BaseSoC.jesd_phys_tx_init_done (BaseSoC.jesd_phys soc) = inr tx /\
    BaseSoC.jesd_phys_rx_init_done (BaseSoC.jesd_phys soc) = inr rx /\
    ars_async_reset (BaseSoC.cd_jesd_reset soc) = Not (And tx rx) /\
    forall v : valuation,
      all_ready soc v = eval v tx && eval v rx /\
      all_ready soc v = spec_all_ready (BaseSoC.jesd_lanes kw) v /\
      (all_ready soc v = true <->
       forall i, 0 <= i < BaseSoC.jesd_lanes kw ->
                 v (tx_init_done i) = true /\ v (rx_init_done i) = true) /\
      (forall i, 0 <= i < BaseSoC.jesd_lanes kw ->
                 v (tx_init_done i) && v (rx_init_done i) = false ->
                 all_ready soc v = false).
Proof.
  intros H. supported kw H; cbn [BaseSoC.jesd_lanes].
  all: eexists; eexists; eexists.
  all: split; [vm_compute; reflexivity|].
  all: split; [vm_compute; reflexivity|].
  all: split; [vm_compute; reflexivity|].
  all: split; [reflexivity|].
  all: intros v.
  all: match goal with
       | |- all_ready ?s ?w = eval ?w ?tx && eval ?w ?rx /\ _ =>
           assert (Hcode : all_ready s w = eval w (And tx rx))
             by (unfold all_ready; cbn [BaseSoC.cd_jesd_reset ars_async_reset eval];
                 apply negb_involutive);
           pose proof (barrier_per_phy w (BaseSoC.jesd_phys s) tx rx
                         eq_refl eq_refl) as Hphy
       end.
  all: match type of Hphy with
       | _ = ?r =>
           match goal with
           | |- _ /\ _ = spec_all_ready ?n ?w /\ _ =>
               change r with (spec_all_ready n w) in Hphy
           end
       end.
  all: rename Hphy into Hspec.
  all: split; [exact Hcode|].
  all: rewrite Hcode, Hspec.
  all: split; [reflexivity|].
  all: split; [apply spec_all_ready_true|].
  all: intros i Hi Hd; exact (spec_all_ready_false _ v i Hi Hd).
Qed.

(** ** The reset of the jesd clock domain *)

Lemma forallb_false {A} (f : A -> bool) (l : list A) :
  forallb f l = false <-> exists x, In x l /\ f x = false.
Proof.
  induction l as [|x xs IH]; simpl.
  - split; [discriminate | intros (x & [] & _)].
  - rewrite andb_false_iff, IH. split.
    + intros [Hx | (y & Hy & Hf)]; [exists x; auto | exists y; auto].
    + intros (y & [<- | Hy] & Hf); [now left | right; eauto].
Qed.

Lemma forallb_false_range (n : Z) (f : Z -> bool) :
  forallb f (Py.range n) = false <-> exists i, 0 <= i < n /\ f i = false.
Proof.
  rewrite forallb_false. split.
  - intros (i & Hi & Fi). exists i. split; [now apply In_range | exact Fi].
  - intros (i & Hi & Fi). exists i. split; [now apply In_range | exact Fi].
Qed.

Lemma init_all_ready (kw : BaseSoC.kwargs) :
  In (BaseSoC.jesd_lanes kw) [4; 8] ->
  exists soc,
    BaseSoC.init kw = inr soc /\
    ars_cd (BaseSoC.cd_jesd_reset soc) = cd_jesd /\
    forall v, all_ready soc v = spec_all_ready (BaseSoC.jesd_lanes kw) v.
Proof.
  intros H. supported kw H; cbn [BaseSoC.jesd_lanes]; built.
  all: split; [reflexivity|]; intros v.
  all: match goal with
       | |- all_ready ?s ?w = _ =>
           unfold all_ready; cbn [BaseSoC.cd_jesd_reset ars_async_reset];
           match goal with
           | |- negb (eval _ (Not (And ?tx ?rx))) = _ =>
               transitivity (eval w (And tx rx));
               [ cbn [eval]; apply negb_involutive
               | exact (barrier_per_phy w (BaseSoC.jesd_phys s) tx rx
                          eq_refl eq_refl) ]
           end
       end.
Qed.

Lemma cd_jesd_step_level (soc : BaseSoC.t) (s : cd_state) (v : valuation) :
  cd_jesd_step soc s v = if all_ready soc v then ACTIVE else HELD_RESET.
Proof.
  unfold cd_jesd_step, all_ready.
  destruct s, (eval v (ars_async_reset (BaseSoC.cd_jesd_reset soc)));
    reflexivity.
Qed.

Lemma cd_jesd_run_last (soc : BaseSoC.t) (s : cd_state)
      (vs : list valuation) (v : valuation) :
  cd_jesd_run soc s (vs ++ [v]) = if all_ready soc v then ACTIVE else HELD_RESET.
Proof.
  unfold cd_jesd_run. rewrite fold_left_app. simpl.
  apply cd_jesd_step_level.
Qed.

(** C2.  The [jesd] domain is a two-state machine driven by the barrier of
    the lanes.  The release condition of its reset is the per-lane
    conjunction: the domain is in [ACTIVE] exactly when every lane has both
    init-done signals, and in [HELD_RESET] otherwise.  A change of state is
    either [HELD_RESET] to [ACTIVE] with every lane done or [ACTIVE] to
    [HELD_RESET] with some lane not done; a lane that drops its done status
    sends an active domain back into reset; whatever happened before, the
    state follows the last sample alone. *)
Theorem cd_jesd_two_state_machine (kw : BaseSoC.kwargs) :
  In (BaseSoC.jesd_lanes kw) [4; 8] ->
  exists soc,
    BaseSoC.init kw = inr soc /\
    ars_cd (BaseSoC.cd_jesd_reset soc) = cd_jesd /\
    forall (v : valuation) (s : cd_state),
      all_ready soc v = spec_all_ready (BaseSoC.jesd_lanes kw) v /\
      (cd_jesd_step soc s v = ACTIVE <->
       forall i, 0 <= i < BaseSoC.jesd_lanes kw ->
                 v (tx_init_done i) = true /\ v (rx_init_done i) = true) /\
      (cd_jesd_step soc s v = HELD_RESET <->
       exists i, 0 <= i < BaseSoC.jesd_lanes kw /\
                 v (tx_init_done i) && v (rx_init_done i) = false) /\
      (all_ready soc v = false -> cd_jesd_step soc s v = HELD_RESET) /\
      (all_ready soc v = true -> cd_jesd_step soc s v = ACTIVE) /\
      (cd_jesd_step soc s v <> s ->
       (s = HELD_RESET /\ cd_jesd_step soc s v = ACTIVE
        /\ spec_all_ready (BaseSoC.jesd_lanes kw) v = true) \/
       (s = ACTIVE /\ cd_jesd_step soc s v = HELD_RESET
        /\ spec_all_ready (BaseSoC.jesd_lanes kw) v = false)) /\
      (forall i, 0 <= i < BaseSoC.jesd_lanes kw ->
                 v (tx_init_done i) && v (rx_init_done i) = false ->
                 cd_jesd_step soc ACTIVE v = HELD_RESET) /\
      (forall vs : list valuation,
         cd_jesd_run soc s (vs ++ [v]) =
         if spec_all_ready (BaseSoC.jesd_lanes kw) v
         then ACTIVE else HELD_RESET).
Proof.
  intros H. destruct (init_all_ready kw H) as (soc & Hinit & Hcd & Hready).
  exists soc. split; [exact Hinit|]. split; [exact Hcd|].
  intros v s.
  split; [apply Hready|].
  split; [|split; [|split; [|split; [|split; [|split]]]]].
  - rewrite cd_jesd_step_level, Hready, <- spec_all_ready_true.
    destruct (spec_all_ready _ v); split; congruence.
  - rewrite cd_jesd_step_level, Hready. unfold spec_all_ready.
    split.
    + intros E.
      destruct (forallb _ (Py.range (BaseSoC.jesd_lanes kw))) eqn:F;
        [discriminate|].
      apply forallb_false_range in F. exact F.
    + intros Hex. apply forallb_false_range in Hex. now rewrite Hex.
  - intros E. now rewrite cd_jesd_step_level, E.
  - intros E. now rewrite cd_jesd_step_level, E.
  - rewrite cd_jesd_step_level, Hready.
    destruct s, (spec_all_ready _ v); intros Hne; try congruence; auto.
  - intros i Hi Hd. rewrite cd_jesd_step_level, Hready.
    now rewrite (spec_all_ready_false _ v i Hi Hd).
  - intros vs. rewrite cd_jesd_run_last, Hready. reflexivity.
Qed.

(** ** The lane remapping table *)

(** C3.  The lookup returns the two tables of the specification: for 4 lanes
    order [3,0,2,1] with no inversion, for 8 lanes order [3,0,2,1,7,4,6,5]
    with lanes 4 to 7 inverted. *)
Theorem remap_constants :
  BaseSoC.adc08dj_phy_rx_order 4 = Some [3; 0; 2; 1] /\
  BaseSoC.adc08dj_phy_rx_polarity 4 = Some [0; 0; 0; 0] /\
  remap 4 = inr ([3; 0; 2; 1], [false; false; false; false]) /\
  BaseSoC.adc08dj_phy_rx_order 8 = Some [3; 0; 2; 1; 7; 4; 6; 5] /\
  BaseSoC.adc08dj_phy_rx_polarity 8 = Some [0; 0; 0; 0; 1; 1; 1; 1] /\
  remap 8 = inr ([3; 0; 2; 1; 7; 4; 6; 5],
                 [false; false; false; false; true; true; true; true]).
Proof. repeat split. Qed.

Ltac lane_cases k Hk :=
  match type of Hk with
  | 0 <= k < 4 =>
      assert (Hc : k = 0 \/ k = 1 \/ k = 2 \/ k = 3) by lia;
      destruct Hc as [-> | [-> | [-> | ->]]]
  | 0 <= k < 8 =>
      assert (Hc : k = 0 \/ k = 1 \/ k = 2 \/ k = 3
                   \/ k = 4 \/ k = 5 \/ k = 6 \/ k = 7) by lia;
      destruct Hc as [-> | [-> | [-> | [-> | [-> | [-> | [-> | ->]]]]]]]
  end.

(** C4.  For both lane counts, lane [k] of the RX core is the PHY of
    physical lane [order[k]]: the PHY created on the pads of that index.
    With four lanes, position 0 is physical lane 3. *)
Theorem core_lane_fed_by_ordered_phy (kw : BaseSoC.kwargs) :
  In (BaseSoC.jesd_lanes kw) [4; 8] ->
  exists soc order,
    BaseSoC.init kw = inr soc /\
    BaseSoC.adc08dj_phy_rx_order (BaseSoC.jesd_lanes kw) = Some order /\
    (forall k, 0 <= k < BaseSoC.jesd_lanes kw ->
       exists phy o,
         Py.getitem (LiteJESD204BCoreRX.phys (BaseSoC.jesd_rx_core soc)) k
           = inr phy /\
         Py.getitem order k = inr o /\
         Py.getitem (BaseSoC.jesd_phys soc) o = inr phy /\
         GTH4.n phy = o /\
         request "adc08dj5200rf_jesd_rx" o = inr (GTH4.rx_pads phy)) /\
    (BaseSoC.jesd_lanes kw = 4 ->
       exists phy,
         Py.getitem (LiteJESD204BCoreRX.phys (BaseSoC.jesd_rx_core soc)) 0
           = inr phy /\
         GTH4.n phy = 3 /\
         GTH4.rx_pads phy = Diff "HPC:DP3_M2C_P" "HPC:DP3_M2C_N" /\
         inverted (GTH4.rx_polarity phy) = false).
Proof.
  intros H. supported kw H; cbn [BaseSoC.jesd_lanes].
  all: eexists; eexists.
  all: split; [vm_compute; reflexivity|].
  all: split; [reflexivity|].
  all: split.
  all: try (intros k Hk; lane_cases k Hk;
            eexists; eexists; repeat split; reflexivity).
  - intros _. eexists. repeat split; reflexivity.
  - intros E. discriminate E.
Qed.

(** For both lane counts, the PHY at position [k] of the RX core is created
    with [rx_polarity = polarity[k]]: the script passes the flag of the
    physical lane, and [polarity[order[k]] = polarity[k]] in both tables. *)
Lemma rx_polarity_argument_follows_table (kw : BaseSoC.kwargs) :
  In (BaseSoC.jesd_lanes kw) [4; 8] ->
  exists soc order polarity,
    BaseSoC.init kw = inr soc /\
    BaseSoC.adc08dj_phy_rx_order (BaseSoC.jesd_lanes kw) = Some order /\
    BaseSoC.adc08dj_phy_rx_polarity (BaseSoC.jesd_lanes kw) = Some polarity /\
    forall k, 0 <= k < BaseSoC.jesd_lanes kw ->
      exists phy p o,
        Py.getitem (LiteJESD204BCoreRX.phys (BaseSoC.jesd_rx_core soc)) k
          = inr phy /\
        Py.getitem polarity k = inr p /\
        Py.getitem order k = inr o /\
        Py.getitem polarity o = inr p /\
        Py.getitem polarity (GTH4.n phy) = inr (GTH4.rx_polarity phy) /\
        GTH4.rx_polarity phy = p /\
        (inverted (GTH4.rx_polarity phy) = true <-> inverted p = true).
Proof.
  intros H. supported kw H; cbn [BaseSoC.jesd_lanes].
  all: eexists; eexists; eexists.
  all: split; [vm_compute; reflexivity|].
  all: split; [reflexivity|].
  all: split; [reflexivity|].
  all: intros k Hk; lane_cases k Hk.
  all: eexists; eexists; eexists.
  all: split; [reflexivity|].
  all: split; [reflexivity|].
  all: split; [reflexivity|].
  all: split; [reflexivity|].
  all: split; [reflexivity|].
  all: split; [reflexivity|].
  all: split; intros E; exact E.
Qed.




(** ** Link status *)

(** C6.  The link status the script builds is the self-AND
    [(enable & jsync) & (enable & jsync)]; under every valuation, hence for
    all four values of the two inputs, it equals [enable AND jsync], a
    function of the current inputs alone. *)
Theorem link_status_is_enable_and_sync (kw : BaseSoC.kwargs) :
  In (BaseSoC.jesd_lanes kw) [4; 8] ->
  exists soc,
    BaseSoC.init kw = inr soc /\
    BaseSoC.jesd_link_status soc =
      And (And (Sig rx_core_enable) (Sig rx_core_jsync))
          (And (Sig rx_core_enable) (Sig rx_core_jsync)) /\
    (forall v : valuation,
       eval v (BaseSoC.jesd_link_status soc)
       = v rx_core_enable && v rx_core_jsync) /\
    (forall link_enable sync_achieved : bool,
       eval (core_outputs link_enable sync_achieved)
            (BaseSoC.jesd_link_status soc)
       = link_enable && sync_achieved).
Proof.
  intros H. supported kw H; built.
  all: split; [reflexivity|].
  all: cbn [BaseSoC.jesd_link_status eval core_outputs].
  all: split; intros; apply andb_diag.
Qed.

(** ** Configuration errors *)

Lemma contains_In (x : Z) (l : list Z) : Py.contains x l = true <-> In x l.
Proof.
  unfold Py.contains. rewrite existsb_exists. split.
  - intros [y [Hy E]]. apply Z.eqb_eq in E. now subst.
  - intros Hx. exists x. split; [exact Hx | apply Z.eqb_refl].
Qed.

Lemma init_supported (kw : BaseSoC.kwargs) :
  In (BaseSoC.jesd_lanes kw) [4; 8] -> exists soc, BaseSoC.init kw = inr soc.
Proof.
  intros H. supported kw H; eexists; vm_compute; reflexivity.
Qed.

Lemma init_unsupported (kw : BaseSoC.kwargs) :
  ~ In (BaseSoC.jesd_lanes kw) [4; 8] ->
  BaseSoC.init kw = inl Py.AssertionError.
Proof.
  intros H. unfold BaseSoC.init.
  destruct (Py.contains (BaseSoC.jesd_lanes kw) [4; 8]) eqn:E.
  - apply contains_In in E. contradiction.
  - reflexivity.
Qed.

(** C7.  Construction fails with [AssertionError] exactly for the lane counts
    other than 4 and 8, and goes through exactly for 4 and 8; for any other
    count neither table is bound, so there is no default to fall back to. *)
Theorem unsupported_lane_count_rejected (kw : BaseSoC.kwargs) :
  (BaseSoC.init kw = inl Py.AssertionError
   <-> ~ In (BaseSoC.jesd_lanes kw) [4; 8]) /\
  ((exists soc, BaseSoC.init kw = inr soc)
   <-> In (BaseSoC.jesd_lanes kw) [4; 8]) /\
  (~ In (BaseSoC.jesd_lanes kw) [4; 8] ->
   BaseSoC.adc08dj_phy_rx_order (BaseSoC.jesd_lanes kw) = None /\
   BaseSoC.adc08dj_phy_rx_polarity (BaseSoC.jesd_lanes kw) = None /\
   remap (BaseSoC.jesd_lanes kw) = inl Py.UnboundLocalError).
Proof.
  repeat split.
  - intros E Hin. destruct (init_supported kw Hin) as [soc Hs]. congruence.
  - apply init_unsupported.
  - intros [soc Hs].
    destruct (Py.contains (BaseSoC.jesd_lanes kw) [4; 8]) eqn:E.
    + now apply contains_In.
    + unfold BaseSoC.init in Hs. rewrite E in Hs. discriminate.
  - apply init_supported.
  - unfold BaseSoC.adc08dj_phy_rx_order.
    destruct (Z.eqb_spec (BaseSoC.jesd_lanes kw) 4) as [E|_];
      [exfalso; apply H; simpl; auto|].
    destruct (Z.eqb_spec (BaseSoC.jesd_lanes kw) 8) as [E|_];
      [exfalso; apply H; simpl; auto|]. reflexivity.
  - unfold BaseSoC.adc08dj_phy_rx_polarity.
    destruct (Z.eqb_spec (BaseSoC.jesd_lanes kw) 4) as [E|_];
      [exfalso; apply H; simpl; auto|].
    destruct (Z.eqb_spec (BaseSoC.jesd_lanes kw) 8) as [E|_];
      [exfalso; apply H; simpl; auto|]. reflexivity.
  - unfold remap, BaseSoC.adc08dj_phy_rx_order.
    destruct (Z.eqb_spec (BaseSoC.jesd_lanes kw) 4) as [E|_];
      [exfalso; apply H; simpl; auto|].
    destruct (Z.eqb_spec (BaseSoC.jesd_lanes kw) 8) as [E|_];
      [exfalso; apply H; simpl; auto|]. reflexivity.
Qed.

(** ** Table invariants *)

(** C8.  For both lane counts the order and polarity tables have exactly
    [N] entries and the order is a permutation of [0 .. N-1]: no index
    twice, none missing. *)
Theorem tables_length_and_permutation (N : Z) :
  In N [4; 8] ->
  exists order polarity,
    BaseSoC.adc08dj_phy_rx_order N = Some order /\
    BaseSoC.adc08dj_phy_rx_polarity N = Some polarity /\
    Py.len order = N /\
    Py.len polarity = N /\
    Permutation order (Py.range N) /\
    NoDup order /\
    (forall i, In i order <-> 0 <= i < N).
Proof.
  intros [<- | [<- | []]].
  all: eexists; eexists.
  all: split; [reflexivity|].
  all: split; [reflexivity|].
  all: split; [reflexivity|].
  all: split; [reflexivity|].
  all: match goal with
       | |- Permutation ?o ?r /\ _ =>
           assert (Ho : NoDup o)
             by (repeat constructor; simpl; intuition discriminate);
           assert (Hr : NoDup r)
             by (vm_compute; repeat constructor; simpl; intuition discriminate);
           assert (Hin : forall i, In i o <-> In i r)
             by (intros i; rewrite In_range; simpl; lia)
       end.
  all: split; [apply NoDup_Permutation; assumption|].
  all: split; [assumption|].
  all: intros i; rewrite Hin; apply In_range.
Qed.

(** ** Defaults and the command-line driver *)

(** C10.  The defaults of [BaseSoC] are four lanes, framing and scrambling
    on, [stpl_random] off; [main] passes nothing but the clock frequency, so
    for every command line it builds the four-lane design with the four-lane
    table, never the eight-lane one. *)
Theorem main_builds_default_four_lanes :
  BaseSoC.jesd_lanes BaseSoC.defaults = 4 /\
  BaseSoC.jesd_framing BaseSoC.defaults = true /\
  BaseSoC.jesd_scrambling BaseSoC.defaults = true /\
  BaseSoC.jesd_stpl_random BaseSoC.defaults = false /\
  forall a : args,
    BaseSoC.jesd_lanes (main_kwargs a) = 4 /\
    BaseSoC.jesd_framing (main_kwargs a) = true /\
    BaseSoC.jesd_scrambling (main_kwargs a) = true /\
    BaseSoC.jesd_stpl_random (main_kwargs a) = false /\
    BaseSoC.adc08dj_phy_rx_order (BaseSoC.jesd_lanes (main_kwargs a))
      = Some [3; 0; 2; 1] /\
    BaseSoC.adc08dj_phy_rx_order (BaseSoC.jesd_lanes (main_kwargs a))
      <> BaseSoC.adc08dj_phy_rx_order 8 /\
    exists soc,
      main a = inr soc /\
      Py.len (BaseSoC.jesd_phys soc) = 4 /\
      map GTH4.n (LiteJESD204BCoreRX.phys (BaseSoC.jesd_rx_core soc))
        = [3; 0; 2; 1] /\
      ps_l (phy_settings
              (LiteJESD204BCoreRX.jesd_settings (BaseSoC.jesd_rx_core soc))) = 4 /\
      framing (LiteJESD204BCoreRX.jesd_settings (BaseSoC.jesd_rx_core soc))
        = true /\
      scrambling (LiteJESD204BCoreRX.jesd_settings (BaseSoC.jesd_rx_core soc))
        = true /\
      LiteJESD204BCoreRX.scrambling (BaseSoC.jesd_rx_core soc) = true /\
      LiteJESD204BCoreRX.stpl_random (BaseSoC.jesd_rx_core soc) = false.
Proof.
  do 4 (split; [reflexivity|]).
  intros [b l f d].
  do 5 (split; [reflexivity|]).
  split; [discriminate|].
  eexists. split; [vm_compute; reflexivity|].
  repeat split.
Qed.

(** ** The two builds, instantiated *)

(** Eight lanes, one of lanes 4 to 7 without rx init-done: the barrier is
    false whatever the other lanes report. *)
Lemma all_ready_eight_lanes_partial :
  exists soc,
    BaseSoC.init eight_lanes = inr soc /\
    forall (v : valuation) (i : Z),
      4 <= i < 8 -> v (rx_init_done i) = false -> all_ready soc v = false.
Proof.
  destruct (all_ready_iff_every_lane_done eight_lanes)
    as (soc & tx & rx & Hinit & _ & _ & _ & Hv).
  - right; left; reflexivity.
  - exists soc. split; [exact Hinit|]. intros v i Hi Hd.
    apply (proj2 (proj2 (proj2 (Hv v))) i).
    + simpl. lia.
    + rewrite Hd. apply andb_false_r.
Defined.

(** Four lanes: from reset, every lane done releases the domain; from
    active, lane 2 losing tx init-done sends it back to reset. *)
Lemma cd_jesd_lane_flap :
  exists soc,
    BaseSoC.init BaseSoC.defaults = inr soc /\
    cd_jesd_step soc HELD_RESET (fun _ => true) = ACTIVE /\
    forall v : valuation,
      v (tx_init_done 2) = false -> cd_jesd_step soc ACTIVE v = HELD_RESET.
Proof.
  destruct (cd_jesd_two_state_machine BaseSoC.defaults)
    as (soc & Hinit & _ & Hv).
  - left; reflexivity.
  - exists soc. split; [exact Hinit|]. split.
    + apply (proj1 (proj2 (Hv (fun _ => true) HELD_RESET))).
      intros i _. split; reflexivity.
    + intros v Hd.
      apply (proj2 (proj1 (proj2 (proj2 (Hv v ACTIVE))))).
      exists 2. split; [simpl; lia|]. rewrite Hd. reflexivity.
Defined.

(** Four lanes: lane 0 of the core is the PHY on the pads of lane 3. *)
Lemma default_core_lane_0 :
  exists soc phy,
    BaseSoC.init BaseSoC.defaults = inr soc /\
    Py.getitem (LiteJESD204BCoreRX.phys (BaseSoC.jesd_rx_core soc)) 0
      = inr phy /\
    GTH4.n phy = 3 /\
    GTH4.rx_pads phy = Diff "HPC:DP3_M2C_P" "HPC:DP3_M2C_N".
Proof.
  destruct (core_lane_fed_by_ordered_phy BaseSoC.defaults)
    as (soc & order & Hinit & _ & _ & H4).
  - left; reflexivity.
  - destruct (H4 eq_refl) as (phy & Hphy & Hn & Hpads & _).
    exists soc, phy. repeat split; assumption.
Defined.

(** Four lanes, link enabled but sync not achieved: status low. *)
Lemma default_link_status_no_sync :
  exists soc,
    BaseSoC.init BaseSoC.defaults = inr soc /\
    eval (core_outputs true false) (BaseSoC.jesd_link_status soc) = false.
Proof.
  destruct (link_status_is_enable_and_sync BaseSoC.defaults)
    as (soc & Hinit & _ & _ & Hv).
  - left; reflexivity.
  - exists soc. split; [exact Hinit|]. exact (Hv true false).
Defined.

(** The eight-lane order is a permutation of 0 .. 7. *)
Lemma eight_lanes_order_permutation :
  exists order,
    BaseSoC.adc08dj_phy_rx_order 8 = Some order /\
    Py.len order = 8 /\
    Permutation order (Py.range 8).
Proof.
  destruct (tables_length_and_permutation 8)
    as (order & polarity & Ho & _ & Hlen & _ & Hperm & _).
  - right; left; reflexivity.
  - exists order. repeat split; assumption.
Defined.


(** * Further properties of the script *)

(** ** Indexing and comprehensions *)

Lemma getitem_in_range {A} (l : list A) (i : Z) (d : A) :
  0 <= i < Py.len l -> Py.getitem l i = inr (nth (Z.to_nat i) l d).
Proof.
  unfold Py.getitem, Py.len. intros Hi.
  destruct (Z.ltb_spec i 0); [lia|].
  destruct (Z.leb_spec 0 i); [|lia].
  destruct (Z.ltb_spec i (Z.of_nat (List.length l))); [|lia]. simpl.
  rewrite (nth_error_nth' l d) by lia. reflexivity.
Qed.

Lemma getitem_wraps {A} (l : list A) (i : Z) :
  - Py.len l <= i < 0 -> Py.getitem l i = Py.getitem l (i + Py.len l).
Proof.
  unfold Py.getitem. intros Hi.
  destruct (Z.ltb_spec i 0); [|lia].
  destruct (Z.ltb_spec (i + Py.len l) 0); [lia|]. reflexivity.
Qed.

Lemma getitem_raises {A} (l : list A) (i : Z) (e : Py.exn) :
  Py.getitem l i = inl e -> e = Py.IndexError.
Proof.
  unfold Py.getitem.
  destruct ((0 <=? _) && (_ <? _)); [destruct (nth_error _ _)|];
    simpl; intros [= <-] || intros [=]; reflexivity.
Qed.

Lemma getitem_succeeds_iff {A} (l : list A) (i : Z) :
  (exists a, Py.getitem l i = inr a) <-> - Py.len l <= i < Py.len l.
Proof.
  split.
  - intros [a Ha]. unfold Py.getitem in Ha.
    destruct (Z.ltb_spec i 0);
      match type of Ha with
      | (if (0 <=? ?j) && (?j <? ?n) then _ else _) = _ =>
          destruct (Z.leb_spec 0 j); destruct (Z.ltb_spec j n);
          simpl in Ha; try discriminate; lia
      end.
  - intros Hi. destruct l as [|d l'] eqn:El.
    + unfold Py.len in Hi. simpl in Hi. lia.
    + rewrite <- El in *. destruct (Z.ltb_spec i 0).
      * rewrite getitem_wraps by lia. eexists.
        apply (getitem_in_range l _ d). lia.
      * eexists. apply (getitem_in_range l _ d). lia.
Qed.

Lemma comprehension_Forall2 {A B} (f : A -> Py.result B)
      (l : list A) (ys : list B) :
  Py.comprehension f l = inr ys <-> Forall2 (fun x y => f x = inr y) l ys.
Proof.
  revert ys. induction l as [|x xs IH]; intros ys; simpl.
  - split.
    + intros [= <-]. constructor.
    + intros H. inversion H. reflexivity.
  - split.
    + destruct (f x) as [e|y] eqn:Ey; simpl; [discriminate|].
      destruct (Py.comprehension f xs) as [e|zs] eqn:Ez; simpl; [discriminate|].
      intros [= <-]. constructor; [exact Ey | now apply IH].
    + intros H. inversion H as [|x' y xs' zs Hy Hzs]; subst.
      rewrite Hy. simpl. apply IH in Hzs. rewrite Hzs. reflexivity.
Qed.

Lemma comprehension_raises {A B} (f : A -> Py.result B)
      (l : list A) (e : Py.exn) :
  Py.comprehension f l = inl e -> exists x, In x l /\ f x = inl e.
Proof.
  induction l as [|x xs IH]; simpl; [discriminate|].
  destruct (f x) as [e'|y] eqn:Ey; simpl.
  - intros [= <-]. exists x. auto.
  - destruct (Py.comprehension f xs) as [e'|zs]; simpl; [|discriminate].
    intros [= <-]. destruct (IH eq_refl) as [x' [Hin Hx']].
    exists x'. auto.
Qed.

Lemma comprehension_total {A B} (f : A -> Py.result B) (l : list A) :
  Forall (fun x => exists y, f x = inr y) l ->
  exists ys, Py.comprehension f l = inr ys.
Proof.
  induction 1 as [|x xs [y Hy] _ [ys Hys]]; simpl.
  - eexists. reflexivity.
  - rewrite Hy, Hys. eexists. reflexivity.
Qed.

Lemma Forall2_length_len {A B} (R : A -> B -> Prop) (l : list A) (r : list B) :
  Forall2 R l r -> Py.len r = Py.len l.
Proof.
  intros H. unfold Py.len. now rewrite (Forall2_length H).
Qed.

Lemma map_nth_seq {A} (l : list A) (d : A) :
  map (fun k => nth k l d) (seq 0 (List.length l)) = l.
Proof.
  induction l as [|x xs IH]; simpl; [reflexivity|].
  f_equal. rewrite <- seq_shift, map_map. exact IH.
Qed.

(** ** The lane reordering, for any PHY list and order *)

(** X1.  The reordering [[jesd_phys[n] for n in order]] goes through exactly when
    every index of the order is a valid Python index of the PHY list; the
    result then has one PHY per entry of the order, the one at that index.
    Otherwise it raises [IndexError]. *)
Theorem jesd_phys_rx_outcome (phys : list GTH4.t) (order : list Z) :
  (Forall (fun i => - Py.len phys <= i < Py.len phys) order ->
   exists r,
     BaseSoC.jesd_phys_rx phys order = inr r /\
     Py.len r = Py.len order /\
     Forall2 (fun i phy => Py.getitem phys i = inr phy) order r) /\
  (~ Forall (fun i => - Py.len phys <= i < Py.len phys) order ->
   BaseSoC.jesd_phys_rx phys order = inl Py.IndexError).
Proof.
  unfold BaseSoC.jesd_phys_rx. split.
  - intros Hall.
    destruct (comprehension_total (Py.getitem phys) order) as [r Hr].
    + eapply Forall_impl; [|exact Hall].
      intros i Hi. now apply getitem_succeeds_iff.
    + exists r. split; [exact Hr|].
      apply comprehension_Forall2 in Hr.
      split; [exact (Forall2_length_len _ _ _ Hr) | exact Hr].
  - intros Hnot.
    destruct (Py.comprehension (Py.getitem phys) order) as [e|r] eqn:E.
    + destruct (comprehension_raises _ _ _ E) as [i [_ Hi]].
      now rewrite (getitem_raises _ _ _ Hi).
    + exfalso. apply Hnot. apply comprehension_Forall2 in E.
      clear Hnot. induction E as [|i phy ixs r Hi _ IH]; constructor.
      * apply getitem_succeeds_iff. eauto.
      * exact IH.
Qed.

Lemma jesd_phys_rx_permutation (phys : list GTH4.t) (order : list Z) :
  Permutation order (Py.range (Py.len phys)) ->
  exists r, BaseSoC.jesd_phys_rx phys order = inr r /\ Permutation r phys.
Proof.
  intros Hperm. destruct phys as [|d phys'] eqn:El.
  - apply Permutation_sym, Permutation_nil in Hperm. subst order.
    exists []. split; [reflexivity | constructor].
  - rewrite <- El in *. clear El phys'.
    exists (map (fun i => nth (Z.to_nat i) phys d) order). split.
    + unfold BaseSoC.jesd_phys_rx. apply comprehension_Forall2.
      assert (Hin : forall i, In i order -> 0 <= i < Py.len phys).
      { intros i Hi. apply In_range. eapply Permutation_in; eauto. }
      clear Hperm. induction order as [|i ixs IH]; simpl; constructor.
      * apply getitem_in_range, Hin. now left.
      * apply IH. intros j Hj. apply Hin. now right.
    + rewrite (Permutation_map _ Hperm).
      unfold Py.range, Py.len. rewrite Nat2Z.id, map_map.
      rewrite <- (map_nth_seq phys d) at 2.
      apply Permutation_refl'. apply map_ext. intros k.
      now rewrite Nat2Z.id.
Qed.

(** X2.  Whenever the order is a permutation of [0 .. len(phys)-1], the
    reordering succeeds and returns a permutation of the PHY list: every PHY
    is handed on exactly once. *)
Theorem jesd_phys_rx_keeps_every_phy (phys : list GTH4.t) (order : list Z) :
  Permutation order (Py.range (Py.len phys)) ->
  exists r,
    BaseSoC.jesd_phys_rx phys order = inr r /\
    Permutation r phys /\
    Py.len r = Py.len phys /\
    (forall phy, In phy r <-> In phy phys).
Proof.
  intros Hperm.
  destruct (jesd_phys_rx_permutation phys order Hperm) as (r & Hr & Hp).
  exists r. split; [exact Hr|]. split; [exact Hp|]. split.
  - unfold Py.len. now rewrite (Permutation_length Hp).
  - intros phy. split; apply Permutation_in;
      [exact Hp | apply Permutation_sym, Hp].
Qed.

(** ** The pad table and [platform.request] *)

Lemma request_in_lookup (ios : list (string * Z * pads))
      (name : string) (number : Z) (io : pads) :
  NoDup (map fst ios) ->
  (request_in ios name number = inr io <-> In (name, number, io) ios).
Proof.
  induction ios as [|[[nm k] io'] rest IH]; simpl; intros Hnd.
  - split; [discriminate | contradiction].
  - inversion Hnd as [|key keys Hnotin Hnd']; subst.
    destruct (String.eqb_spec nm name) as [En|En];
      destruct (Z.eqb_spec k number) as [Ek|Ek]; simpl.
    1: { subst. split.
         - intros [= <-]. now left.
         - intros [[= <-] | Hin]; [reflexivity|].
           exfalso. apply Hnotin.
           change (name, number) with (fst (name, number, io)).
           now apply in_map. }
    all: rewrite (IH Hnd'); split; [now right|].
    all: intros [[= -> -> _] | Hin]; [congruence | exact Hin].
Qed.

Lemma fms_ios_keys_NoDup : NoDup (map fst adc08dj5200rf_fms_ios).
Proof.
  unfold adc08dj5200rf_fms_ios. simpl.
  repeat (constructor; [simpl; intuition discriminate|]). constructor.
Qed.

(** X3.  No two entries of the pad table share a name and number, so no entry
    is shadowed by an earlier one: the first request of the name and number
    of any entry returns that entry. *)
Theorem extension_entry_never_shadowed :
  NoDup (map fst adc08dj5200rf_fms_ios) /\
  forall (name : string) (number : Z) (io : pads),
    In (name, number, io) adc08dj5200rf_fms_ios ->
    request name number = inr io.
Proof.
  split; [exact fms_ios_keys_NoDup|].
  intros name number io Hin.
  now apply (request_in_lookup _ _ _ _ fms_ios_keys_NoDup).
Qed.

Ltac no_lane i :=
  unfold request, adc08dj5200rf_fms_ios; cbn -[Z.eqb];
  repeat match goal with
    | |- context [?k =? i] => destruct (Z.eqb_spec k i); [lia|]
    end;
  reflexivity.

Lemma request_rx_missing (i : Z) :
  ~ 0 <= i < 8 -> request "adc08dj5200rf_jesd_rx" i = inl Py.ConstraintError.
Proof. intros Hi. no_lane i. Qed.

Lemma request_tx_missing (i : Z) :
  ~ 0 <= i < 8 -> request "adc08dj5200rf_jesd_tx" i = inl Py.ConstraintError.
Proof. intros Hi. no_lane i. Qed.

(** X4.  The table provides rx and tx lane pads for the numbers 0 to 7 and for no
    other: a request outside this range raises [ConstraintError], one inside
    returns a differential pair. *)
Theorem lane_pads_exist_for_0_to_7 (i : Z) :
  ((exists p n, request "adc08dj5200rf_jesd_rx" i = inr (Diff p n))
   <-> 0 <= i < 8) /\
  ((exists p n, request "adc08dj5200rf_jesd_tx" i = inr (Diff p n))
   <-> 0 <= i < 8) /\
  (~ 0 <= i < 8 ->
   request "adc08dj5200rf_jesd_rx" i = inl Py.ConstraintError /\
   request "adc08dj5200rf_jesd_tx" i = inl Py.ConstraintError).
Proof.
  assert (Hdec : 0 <= i < 8 \/ ~ 0 <= i < 8) by lia.
  split; [split | split; [split | intros Hi; split]].
  - intros (p & n & H). destruct Hdec as [Hi|Hi]; [exact Hi|].
    rewrite (request_rx_missing i Hi) in H. discriminate.
  - intros Hi. lane_cases i Hi; eexists; eexists; reflexivity.
  - intros (p & n & H). destruct Hdec as [Hi|Hi]; [exact Hi|].
    rewrite (request_tx_missing i Hi) in H. discriminate.
  - intros Hi. lane_cases i Hi; eexists; eexists; reflexivity.
  - now apply request_rx_missing.
  - now apply request_tx_missing.
Qed.

(** ** One iteration of the PHY loop *)

Lemma polarity_unbound (lanes : Z) :
  ~ In lanes [4; 8] -> BaseSoC.adc08dj_phy_rx_polarity lanes = None.
Proof.
  intros H. unfold BaseSoC.adc08dj_phy_rx_polarity.
  destruct (Z.eqb_spec lanes 4) as [E|_]; [exfalso; apply H; simpl; auto|].
  destruct (Z.eqb_spec lanes 8) as [E|_]; [exfalso; apply H; simpl; auto|].
  reflexivity.
Qed.

(** X5.  Creating the PHY of lane [i] evaluates, in this order, the two pad
    requests, the polarity table and its entry [i].  It raises
    [ConstraintError] for a lane without pads, [UnboundLocalError] when the
    lane count has no table, [IndexError] for a lane past the table, and
    otherwise yields the PHY numbered [i], on the pads of number [i], with
    its own two init-done signals and the fixed transceiver options. *)
Theorem jesd_phy_outcome (kw : BaseSoC.kwargs) (i : Z) :
  (~ 0 <= i < 8 -> BaseSoC.jesd_phy kw i = inl Py.ConstraintError) /\
  (0 <= i < 8 -> ~ In (BaseSoC.jesd_lanes kw) [4; 8] ->
   BaseSoC.jesd_phy kw i = inl Py.UnboundLocalError) /\
  (In (BaseSoC.jesd_lanes kw) [4; 8] -> BaseSoC.jesd_lanes kw <= i < 8 ->
   BaseSoC.jesd_phy kw i = inl Py.IndexError) /\
  (In (BaseSoC.jesd_lanes kw) [4; 8] -> 0 <= i < BaseSoC.jesd_lanes kw ->
   exists phy,
     BaseSoC.jesd_phy kw i = inr phy /\
     GTH4.n phy = i /\
     request "adc08dj5200rf_jesd_tx" i = inr (GTH4.tx_pads phy) /\
     request "adc08dj5200rf_jesd_rx" i = inr (GTH4.rx_pads phy) /\
     GTH4.tx_init_done phy = Sig (tx_init_done i) /\
     GTH4.rx_init_done phy = Sig (rx_init_done i) /\
     GTH4.sys_clk_freq phy = BaseSoC.sys_clk_freq kw /\
     GTH4.data_width phy = 40 /\
     GTH4.clock_aligner phy = false /\
     GTH4.tx_buffer_enable phy = true /\
     GTH4.rx_buffer_enable phy = true).
Proof.
  split; [|split; [|split]].
  - intros Hi. unfold BaseSoC.jesd_phy.
    now rewrite (request_tx_missing i Hi).
  - intros Hi Hl. unfold BaseSoC.jesd_phy.
    rewrite (polarity_unbound _ Hl).
    lane_cases i Hi; reflexivity.
  - intros Hl Hi. supported kw Hl; cbn [BaseSoC.jesd_lanes] in *.
    + assert (Hc : i = 4 \/ i = 5 \/ i = 6 \/ i = 7) by lia.
      destruct Hc as [-> | [-> | [-> | ->]]]; reflexivity.
    + lia.
  - intros Hl Hi. supported kw Hl; cbn [BaseSoC.jesd_lanes] in *.
    all: lane_cases i Hi.
    all: eexists.
    all: split; [vm_compute; reflexivity|].
    all: repeat split.
Qed.

(** ** The PHY list of a build *)

Lemma NoDup_strings (l : list string) : nodup string_dec l = l -> NoDup l.
Proof. intros <-. apply NoDup_nodup. Qed.

(** X6.  In both builds the PHY list is indexed by lane number, and the pins the
    JESD section takes from the board (reference clock, SYSREF, SYNC and the
    tx and rx pair of every lane) are pairwise distinct. *)
Theorem jesd_phys_indexed_on_distinct_pins (kw : BaseSoC.kwargs) :
  In (BaseSoC.jesd_lanes kw) [4; 8] ->
  exists soc refclk sysref sync,
    BaseSoC.init kw = inr soc /\
    map GTH4.n (BaseSoC.jesd_phys soc) = Py.range (BaseSoC.jesd_lanes kw) /\
    request "adc08dj5200rf_refclk" 0 = inr refclk /\
    request "adc08dj5200rf_sysref" 0 = inr sysref /\
    request "adc08dj5200rf_sync" 0 = inr sync /\
    NoDup (pins refclk ++ pins sysref ++ pins sync ++
           flat_map (fun phy => pins (GTH4.tx_pads phy)
                                ++ pins (GTH4.rx_pads phy))
                    (BaseSoC.jesd_phys soc)).
Proof.
  intros H. supported kw H.
  all: eexists; eexists; eexists; eexists.
  all: split; [vm_compute; reflexivity|].
  all: split; [reflexivity|].
  all: split; [reflexivity|].
  all: split; [reflexivity|].
  all: split; [reflexivity|].
  all: apply NoDup_strings; vm_compute; reflexivity.
Qed.

Lemma init_core_phys (kw : BaseSoC.kwargs) :
  In (BaseSoC.jesd_lanes kw) [4; 8] ->
  exists soc order,
    BaseSoC.init kw = inr soc /\
    BaseSoC.adc08dj_phy_rx_order (BaseSoC.jesd_lanes kw) = Some order /\
    Py.len (BaseSoC.jesd_phys soc) = BaseSoC.jesd_lanes kw /\
    BaseSoC.jesd_phys_rx (BaseSoC.jesd_phys soc) order
      = inr (LiteJESD204BCoreRX.phys (BaseSoC.jesd_rx_core soc)) /\
    Permutation order (Py.range (BaseSoC.jesd_lanes kw)).
Proof.
  intros H. supported kw H.
  all: eexists; eexists.
  all: split; [vm_compute; reflexivity|].
  all: split; [reflexivity|].
  all: split; [reflexivity|].
  all: split; [vm_compute; reflexivity|].
  all: apply NoDup_Permutation.
  all: try (vm_compute; repeat constructor; simpl; intuition discriminate).
  all: intros i; rewrite In_range; simpl; lia.
Qed.

(** X7.  In both builds the PHY list handed to the RX core is a permutation of
    the PHY list: the reordering drops no lane and repeats none. *)
Theorem core_gets_every_phy_once (kw : BaseSoC.kwargs) :
  In (BaseSoC.jesd_lanes kw) [4; 8] ->
  exists soc,
    BaseSoC.init kw = inr soc /\
    Permutation (LiteJESD204BCoreRX.phys (BaseSoC.jesd_rx_core soc))
                (BaseSoC.jesd_phys soc) /\
    Py.len (LiteJESD204BCoreRX.phys (BaseSoC.jesd_rx_core soc))
      = BaseSoC.jesd_lanes kw /\
    forall phy,
      In phy (LiteJESD204BCoreRX.phys (BaseSoC.jesd_rx_core soc))
      <-> In phy (BaseSoC.jesd_phys soc).
Proof.
  intros H.
  destruct (init_core_phys kw H) as (soc & order & Hinit & _ & Hlen & Hrx & Hord).
  rewrite <- Hlen in Hord.
  destruct (jesd_phys_rx_permutation _ _ Hord) as (r & Hr & Hp).
  rewrite Hrx in Hr. injection Hr as <-.
  exists soc. split; [exact Hinit|]. split; [exact Hp|]. split.
  - rewrite <- Hlen. unfold Py.len. now rewrite (Permutation_length Hp).
  - intros phy. split; apply Permutation_in;
      [exact Hp | apply Permutation_sym, Hp].
Qed.

(** ** The barrier, for any PHY list *)

(** X8.  On an empty PHY list both reductions raise [TypeError].  On any other
    list they succeed, and the reset request built from them is asserted
    exactly when some PHY of the list lacks one of its init-done signals. *)
Theorem reset_request_any_phy_list (phys : list GTH4.t) :
  (phys = [] ->
   BaseSoC.jesd_phys_tx_init_done phys = inl Py.TypeError /\
   BaseSoC.jesd_phys_rx_init_done phys = inl Py.TypeError) /\
  (phys <> [] ->
   exists tx rx,
     BaseSoC.jesd_phys_tx_init_done phys = inr tx /\
     BaseSoC.jesd_phys_rx_init_done phys = inr rx /\
     forall v : valuation,
       eval v (Not (And tx rx)) = true <->
       exists phy,
         In phy phys /\
         (eval v (GTH4.tx_init_done phy) = false \/
          eval v (GTH4.rx_init_done phy) = false)).
Proof.
  split.
  - intros ->. split; reflexivity.
  - intros Hne. destruct phys as [|phy0 rest]; [congruence|].
    eexists; eexists. split; [reflexivity|]. split; [reflexivity|].
    intros v. cbn [eval].
    match goal with
    | |- negb (eval v ?tx && eval v ?rx) = true <-> _ =>
        change (eval v tx && eval v rx) with (eval v (And tx rx));
        rewrite (barrier_per_phy v (phy0 :: rest) tx rx eq_refl eq_refl)
    end.
    rewrite negb_true_iff, forallb_false. split.
    + intros (phy & Hin & Hd). exists phy. split; [exact Hin|].
      now apply andb_false_iff.
    + intros (phy & Hin & Hd). exists phy. split; [exact Hin|].
      now apply andb_false_iff.
Qed.

(** ** What the reset and the link status depend on *)

Lemma spec_all_ready_ext (n : Z) (v w : valuation) :
  (forall i, 0 <= i < n ->
     v (tx_init_done i) = w (tx_init_done i) /\
     v (rx_init_done i) = w (rx_init_done i)) ->
  spec_all_ready n v = spec_all_ready n w.
Proof.
  intros H. unfold spec_all_ready.
  assert (Hin : forall i, In i (Py.range n) -> 0 <= i < n)
    by (intros i; apply In_range).
  induction (Py.range n) as [|i l IH]; simpl; [reflexivity|].
  destruct (H i (Hin i (or_introl eq_refl))) as [-> ->].
  rewrite IH; [reflexivity|]. intros j Hj. apply Hin. now right.
Qed.

(** X9.  In both builds the reset of the [jesd] domain reads the init-done
    signals of lanes [0 .. N-1] and nothing else: two samples that agree on
    them give the same barrier and the same next state, whatever the RX core
    outputs or any other signal do.  The link status, in turn, reads only
    the two outputs of the RX core. *)
Theorem reset_reads_only_lane_signals (kw : BaseSoC.kwargs) :
  In (BaseSoC.jesd_lanes kw) [4; 8] ->
  exists soc,
    BaseSoC.init kw = inr soc /\
    (forall v w : valuation,
       (forall i, 0 <= i < BaseSoC.jesd_lanes kw ->
          v (tx_init_done i) = w (tx_init_done i) /\
          v (rx_init_done i) = w (rx_init_done i)) ->
       all_ready soc v = all_ready soc w /\
       forall s, cd_jesd_step soc s v = cd_jesd_step soc s w) /\
    (forall v w : valuation,
       v rx_core_enable = w rx_core_enable ->
       v rx_core_jsync = w rx_core_jsync ->
       eval v (BaseSoC.jesd_link_status soc)
       = eval w (BaseSoC.jesd_link_status soc)).
Proof.
  intros H. destruct (init_all_ready kw H) as (soc & Hinit & _ & Hready).
  exists soc. split; [exact Hinit|]. split.
  - intros v w Hvw.
    assert (E : all_ready soc v = all_ready soc w).
    { rewrite !Hready. now apply spec_all_ready_ext. }
    split; [exact E|]. intros s. now rewrite !cd_jesd_step_level, E.
  - intros v w He Hj. clear Hready.
    supported kw H; vm_compute in Hinit; injection Hinit as <-.
    all: cbn [BaseSoC.jesd_link_status eval]; now rewrite He, Hj.
Qed.

(** ** The parameters of the RX core *)

(** X10.  In both builds the RX core gets as many PHYs as the link has lanes and
    converters ([L = M = jesd_lanes], 8-bit samples), a converter data width
    of 8 bits per lane, and the framing, scrambling and [stpl_random]
    arguments unchanged; the scrambling flag of the core and the one of its
    link settings are the same. *)
Theorem rx_core_parameters (kw : BaseSoC.kwargs) :
  In (BaseSoC.jesd_lanes kw) [4; 8] ->
  exists soc,
    BaseSoC.init kw = inr soc /\
    let core := BaseSoC.jesd_rx_core soc in
    let settings := LiteJESD204BCoreRX.jesd_settings core in
    Py.len (LiteJESD204BCoreRX.phys core) = ps_l (phy_settings settings) /\
    ps_l (phy_settings settings) = BaseSoC.jesd_lanes kw /\
    ps_m (phy_settings settings) = BaseSoC.jesd_lanes kw /\
    ps_n (phy_settings settings) = 8 /\
    ps_np (phy_settings settings) = 8 /\
    LiteJESD204BCoreRX.converter_data_width core
      = ps_np (phy_settings settings) * ps_m (phy_settings settings) /\
    transport_settings settings = mkTransportSettings 2 1 32 0 /\
    did settings = 90 /\
    bid settings = 5 /\
    framing settings = BaseSoC.jesd_framing kw /\
    scrambling settings = BaseSoC.jesd_scrambling kw /\
    LiteJESD204BCoreRX.scrambling core = scrambling settings /\
    LiteJESD204BCoreRX.stpl_random core = BaseSoC.jesd_stpl_random kw.
Proof.
  intros H. supported kw H; built.
  all: repeat split.
Qed.

(** ** The analyzer probe *)

Section Probe.

Context {L : Type}.

Lemma fold_append_link (links : list L) (acc : list (Analyzer.probe L)) :
  fold_left Analyzer.append_link links acc
  = acc ++ flat_map Analyzer.link_signals links.
Proof.
  revert acc. induction links as [|link rest IH]; intros acc; simpl.
  - now rewrite app_nil_r.
  - rewrite IH. unfold Analyzer.append_link.
    rewrite <- !app_assoc. reflexivity.
Qed.

Lemma nth_error_link_signals (links : list L) (k j : nat) (link : L) :
  nth_error links k = Some link ->
  (j < 4)%nat ->
  nth_error (flat_map Analyzer.link_signals links) (4 * k + j)
  = nth_error (Analyzer.link_signals link) j.
Proof.
  revert k. induction links as [|x rest IH]; intros k Hk Hj.
  - destruct k; discriminate.
  - destruct k as [|k]; simpl in Hk.
    + injection Hk as ->. simpl.
      destruct j as [|[|[|[|j]]]]; try reflexivity; lia.
    + replace (4 * S k + j)%nat with (S (S (S (S (4 * k + j))))) by lia.
      simpl. apply IH; assumption.
Qed.

(** X11.  The probe list is [jsync], [jref], then four signals per link in link
    order, then the transport source: [4 * len(links) + 3] signals, captured
    in the [jesd] clock domain at the requested depth. *)
Theorem analyzer_signals_layout (links : list L) (depth : Z) :
  let analyzer := Analyzer.add_jesd_rx_probe links depth in
  Analyzer.signals analyzer
  = [Analyzer.jsync; Analyzer.jref]
      ++ flat_map Analyzer.link_signals links
      ++ [Analyzer.transport_source] /\
  Py.len (Analyzer.signals analyzer) = 4 * Py.len links + 3 /\
  Analyzer.depth analyzer = depth /\
  Analyzer.clock_domain analyzer = "jesd"%string.
Proof.
  cbv zeta. unfold Analyzer.add_jesd_rx_probe. cbn [Analyzer.signals
    Analyzer.depth Analyzer.clock_domain].
  rewrite fold_append_link, <- app_assoc.
  split; [reflexivity|]. split; [|split; reflexivity].
  unfold Py.len. rewrite !length_app. simpl List.length.
  assert (Hlen : List.length (flat_map Analyzer.link_signals links)
                 = (4 * List.length links)%nat).
  { induction links as [|x rest IH]; simpl; [reflexivity|]. rewrite IH. lia. }
  rewrite Hlen. lia.
Qed.

(** X12.  The signals of the link at position [k] sit at offsets [4k+2 .. 4k+5] of
    the probe list: aligner source, FSM state, ILAS valid, ILAS done. *)
Theorem analyzer_link_offsets (links : list L) (depth : Z)
        (k : nat) (link : L) :
  nth_error links k = Some link ->
  let signals := Analyzer.signals (Analyzer.add_jesd_rx_probe links depth) in
  nth_error signals 0 = Some Analyzer.jsync /\
  nth_error signals 1 = Some Analyzer.jref /\
  nth_error signals (4 * k + 2) = Some (Analyzer.aligner_source link) /\
  nth_error signals (4 * k + 3) = Some (Analyzer.fsm link) /\
  nth_error signals (4 * k + 4) = Some (Analyzer.ilas_valid link) /\
  nth_error signals (4 * k + 5) = Some (Analyzer.ilas_done link) /\
  nth_error signals (4 * List.length links + 2)
    = Some Analyzer.transport_source.
Proof.
  intros Hk. cbv zeta. unfold Analyzer.add_jesd_rx_probe.
  cbn [Analyzer.signals]. rewrite fold_append_link, <- app_assoc.
  assert (Hlen : List.length (flat_map Analyzer.link_signals links)
                 = (4 * List.length links)%nat).
  { clear. induction links as [|x rest IH]; simpl; [reflexivity|].
    rewrite IH. lia. }
  assert (Hoff : forall j, (j < 4)%nat ->
            nth_error ([Analyzer.jsync; Analyzer.jref]
                         ++ flat_map Analyzer.link_signals links
                         ++ [Analyzer.transport_source]) (4 * k + (2 + j))
            = nth_error (Analyzer.link_signals link) j).
  { intros j Hj.
    replace (4 * k + (2 + j))%nat with (S (S (4 * k + j))) by lia.
    cbn [app nth_error].
    assert (Hlt : (4 * k + j < List.length (flat_map Analyzer.link_signals links))%nat).
    { rewrite Hlen.
      assert (k < List.length links)%nat
        by (apply nth_error_Some; congruence).
      lia. }
    rewrite nth_error_app1 by exact Hlt.
    now apply nth_error_link_signals. }
  split; [reflexivity|]. split; [reflexivity|].
  split; [exact (Hoff 0%nat ltac:(lia))|].
  split; [exact (Hoff 1%nat ltac:(lia))|].
  split; [exact (Hoff 2%nat ltac:(lia))|].
  split; [exact (Hoff 3%nat ltac:(lia))|].
  replace (4 * List.length links + 2)%nat
    with (S (S (List.length (flat_map Analyzer.link_signals links)))) by lia.
  cbn [app nth_error].
  rewrite nth_error_app2 by lia. now rewrite Nat.sub_diag.
Qed.

End Probe.

(** ** The further properties at the two builds *)

(** The four PHYs of the default build under the four-lane order. *)
Lemma default_phys_reordered :
  exists r,
    BaseSoC.jesd_phys_rx default_phys [3; 0; 2; 1] = inr r /\
    Permutation r default_phys /\
    Py.len r = 4.
Proof.
  destruct (jesd_phys_rx_keeps_every_phy default_phys [3; 0; 2; 1])
    as (r & Hr & Hp & Hlen & _).
  - change (Py.len default_phys) with 4. apply NoDup_Permutation.
    + repeat constructor; simpl; intuition discriminate.
    + vm_compute. repeat constructor; simpl; intuition discriminate.
    + intros i. rewrite In_range. simpl. lia.
  - exists r. split; [exact Hr|]. split; [exact Hp | exact Hlen].
Defined.

(** Eight lanes: PHY [i] of the list is lane [i]. *)
Lemma eight_lanes_phys_indexed :
  exists soc,
    BaseSoC.init eight_lanes = inr soc /\
    map GTH4.n (BaseSoC.jesd_phys soc) = [0; 1; 2; 3; 4; 5; 6; 7].
Proof.
  destruct (jesd_phys_indexed_on_distinct_pins eight_lanes)
    as (soc & refclk & sysref & sync & Hinit & Hn & _).
  - right; left; reflexivity.
  - exists soc. split; [exact Hinit | exact Hn].
Defined.

(** Eight lanes: the RX core holds eight PHYs, those of the PHY list. *)
Lemma eight_lanes_core_phys :
  exists soc,
    BaseSoC.init eight_lanes = inr soc /\
    Permutation (LiteJESD204BCoreRX.phys (BaseSoC.jesd_rx_core soc))
                (BaseSoC.jesd_phys soc) /\
    Py.len (LiteJESD204BCoreRX.phys (BaseSoC.jesd_rx_core soc)) = 8.
Proof.
  destruct (core_gets_every_phy_once eight_lanes)
    as (soc & Hinit & Hp & Hlen & _).
  - right; left; reflexivity.
  - exists soc. split; [exact Hinit|]. split; [exact Hp | exact Hlen].
Defined.

(** Four lanes: the RX core outputs do not reach the reset of the domain. *)
Lemma default_reset_ignores_core_outputs :
  exists soc,
    BaseSoC.init BaseSoC.defaults = inr soc /\
    forall (v : valuation) (enable jsync : bool),
      all_ready soc
        (fun s => match s with
                  | rx_core_enable => enable
                  | rx_core_jsync => jsync
                  | _ => v s
                  end)
      = all_ready soc v.
Proof.
  destruct (reset_reads_only_lane_signals BaseSoC.defaults)
    as (soc & Hinit & Hreset & _).
  - left; reflexivity.
  - exists soc. split; [exact Hinit|]. intros v enable jsync.
    apply Hreset. intros i Hi. split; reflexivity.
Defined.

(** Eight lanes: L = M = 8 and a 64-bit converter data path. *)
Lemma eight_lanes_core_parameters :
  exists soc,
    BaseSoC.init eight_lanes = inr soc /\
    ps_l (phy_settings
            (LiteJESD204BCoreRX.jesd_settings (BaseSoC.jesd_rx_core soc))) = 8 /\
    LiteJESD204BCoreRX.converter_data_width (BaseSoC.jesd_rx_core soc) = 64.
Proof.
  destruct (rx_core_parameters eight_lanes)
    as (soc & Hinit & _ & Hl & Hm & _ & Hnp & Hw & _).
  - right; left; reflexivity.
  - exists soc. split; [exact Hinit|]. split; [exact Hl|].
    rewrite Hw, Hnp, Hm. reflexivity.
Defined.

(** Four links, default depth: the aligner source of the third link is
    signal 10 of the capture. *)
Lemma analyzer_third_link_offset :
  nth_error (Analyzer.signals
               (Analyzer.add_jesd_rx_probe [0; 1; 2; 3] Analyzer.default_depth))
            10
  = Some (Analyzer.aligner_source 2).
Proof.
  exact (proj1 (proj2 (proj2
           (analyzer_link_offsets [0; 1; 2; 3] Analyzer.default_depth
              2%nat 2 eq_refl)))).
Defined.
